(** * Safety backend: the trip state engine and the score interpreter

    A shallow embedding of [safety-backend/app.py]: the two Flask
    endpoints [location_ping] and [end_trip], the helpers they call
    ([get_district_from_coords], [interpret_score],
    [send_push_notification]) and the module-level dictionary
    [USER_LAST_DISTRICT], followed by the properties of the written
    specification stated over that embedding.

    Conventions of the embedding.
    - A Python [float] score is a rational number ([Q]): every finite
      double is one, and the interpreter only compares the score against
      the integer bounds 95, 80, 60 and 40, which Python does exactly.
    - Dictionaries are finite maps ([gmap]); [d.get(k)] and [k in d] are
      lookups, [d[k] = v] is an insertion and [del d[k]] a deletion.
    - A module-level collaborator that failed to load is [None].  Line 139
      takes the truth value of the three collaborators, and the truth
      value of a loaded pandas frame does not exist: asking for it raises.
      The embedding keeps that, so [location_ping] answers 500 whenever
      the model and the dataset are loaded; the rest of the handler,
      lines 142 to 183, is the function [handle_ping].
    - An endpoint is a function from the request body and the dictionary
      to the HTTP response, the new dictionary and the list of calls made
      to the outside world, in order.  An exception that nothing catches
      is the response 500.  Console output is not modelled. *)

From Stdlib Require Import ZArith QArith Qround Lia Lqa.
From stdpp Require Import base option list strings gmap.

Local Open Scope Z_scope.
Local Open Scope string_scope.

(** ** Section 2 of the source: helper functions *)

(** *** [interpret_score] *)

(** Python's [x <= y] and [x < y] on scores. *)
Definition Qleb (x y : Q) : bool := Qle_bool x y.
Definition Qltb (x y : Q) : bool :=
  match (x ?= y)%Q with Lt => true | _ => false end.

(** [round(score, 1)] in exact arithmetic: ten times the score, rounded to
    the nearest integer with ties to the even one, over ten.  The score is
    a numpy float, whose [round] computes the product and the quotient in
    binary floating point; the displayed digit can therefore differ from
    this one when ten times the score is not a double. *)
Definition round1 (score : Q) : Q :=
  let t := (score * 10)%Q in
  let f := Qfloor t in
  let tenths :=
    match (t - inject_Z f ?= 1 # 2)%Q with
    | Lt => f
    | Gt => f + 1
    | Eq => if Z.even f then f else f + 1
    end in
  (tenths # 10)%Q.

(** The tagline is an f-string: a fixed label followed by
    [(display_score/100)]. *)
Record tagline_t := Tagline { tagline_label : string; display_score : Q }.

(** The dictionary [interpret_score] returns, one field per key. *)
Record message_details_t := MessageDetails {
  level : Z;
  level_name : string;
  tagline : tagline_t;
  color_code : string;
  emoji : string;
  advice : string
}.

Definition interpret_score (score : Q) : message_details_t :=
  let display_score := round1 score in
  if Qleb 95 score then
    MessageDetails 5 "All Clear" (Tagline "Excellent Safety" display_score)
      "GREEN" "🟢"
      "Extremely low risk. Feel free to explore and enjoy all activities with confidence."
  else if Qleb 80 score && Qltb score 95 then
    MessageDetails 4 "Low Risk" (Tagline "Good Safety" display_score)
      "BLUE" "🔵"
      "Low risk profile. Practice standard awareness, like being mindful of belongings in crowded places."
  else if Qleb 60 score && Qltb score 80 then
    MessageDetails 3 "Elevated Awareness" (Tagline "Moderate Safety" display_score)
      "YELLOW" "🟡"
      "Be observant. After 9:00 PM, stick to main roads and consider using a trusted taxi service for late travel."
  else if Qleb 40 score && Qltb score 60 then
    MessageDetails 2 "High Caution" (Tagline "High Risk" display_score)
      "ORANGE" "🟠"
      "Limit non-essential travel, especially walking alone after sunset. Share your live location with a contact."
  else
    MessageDetails 1 "Critical Alert" (Tagline "Critical Risk" display_score)
      "RED" "🔴"
      "Very high-risk zone. Travel for essential purposes only, using secure transport. Do not travel alone.".

(** *** The outside world *)

(** What one call [geolocator.reverse((lat, lon), exactly_one=True,
    timeout=10)] can do: raise (a timeout, a service error), return no
    location, or return a location whose [raw] dictionary may hold an
    ['address'] dictionary. *)
Inductive reverse_result :=
  | ReverseRaises
  | ReverseNothing
  | ReverseLocation (raw_address : option (gmap string string)).

(** The message handed to Firebase by [send_push_notification]. *)
Record fcm_data := FcmData {
  data_level : Z;
  data_level_name : string;
  data_tagline : tagline_t;
  data_color_code : string;
  data_advice : string
}.

Record fcm_message := FcmMessage {
  notification_title : string;
  notification_body : tagline_t;
  data : fcm_data;
  token : string
}.

(** The module-level collaborators.  [model_pipeline], [district_data] and
    [geolocator] are [None] when their initialisation failed.
    - [model_pipeline]: [predict] on a one-row frame holding
      [crime_rate_per_capita]; [None] when it raises.
    - [district_data]: the frame indexed by district name; a row maps a
      column name to its value.
    - [messaging_send]: [true] when [messaging.send] returned, [false]
      when it raised. *)
Record server := Server {
  model_pipeline : option (Q -> option Q);
  district_data : option (gmap string (gmap string Q));
  geolocator : option (Q -> Q -> reverse_result);
  messaging_send : fcm_message -> bool
}.

(** The calls an endpoint makes to the outside world. *)
Inductive event :=
  | Reverse (lat lon : Q)
  | Loc (district : string)
  | Predict (crime_rate_per_capita : Q)
  | Send (message : fcm_message) (delivered : bool).

Definition is_reverse (e : event) : bool :=
  match e with Reverse _ _ => true | _ => false end.
Definition is_send (e : event) : bool :=
  match e with Send _ _ => true | _ => false end.

(** The number of notification dispatches in a list of calls. *)
Definition dispatches (calls : list event) : nat :=
  length (List.filter is_send calls).

(** *** [get_district_from_coords] *)

(** [d.get(k, default)] where the default is itself an optional value. *)
Definition get_or (address : gmap string string) (k : string)
    (default : option string) : option string :=
  match address !! k with Some v => Some v | None => default end.

Definition get_district_from_coords (geolocator : option (Q -> Q -> reverse_result))
    (lat lon : Q) : option string * list event :=
  match geolocator with
  | None => (None, [])
  | Some reverse =>
    match reverse lat lon with
    | ReverseLocation raw_address =>
      let address := default ∅ raw_address in
      let district :=
        get_or address "county"
          (get_or address "city_district"
             (get_or address "suburb" (get_or address "city" None))) in
      (district, [Reverse lat lon])
    | ReverseNothing => (None, [Reverse lat lon])
    | ReverseRaises => (None, [Reverse lat lon])
    end
  end.

(** *** [send_push_notification] *)

(** Builds the message and sends it; an exception of [messaging.send] is
    caught inside, so the function always returns. *)
Definition send_push_notification (send : fcm_message -> bool)
    (fcm_token : string) (message_details : message_details_t) : list event :=
  let message :=
    FcmMessage
      (emoji message_details ++ " Safety Alert: " ++ level_name message_details)
      (tagline message_details)
      (FcmData (level message_details) (level_name message_details)
         (tagline message_details) (color_code message_details)
         (advice message_details))
      fcm_token in
  [Send message (send message)].

(** ** Section 3 of the source: the endpoints *)

(** What Flask answers: [jsonify({'status': .., 'message': ..}), code], or
    500 when the view raised. *)
Inductive response :=
  | Json (body_status : string) (body_message : option string) (http_status : Z)
  | InternalServerError.

Definition resp_unavailable : response :=
  Json "error" (Some "Server is not properly configured") 503.
Definition resp_invalid : response :=
  Json "error" (Some "Invalid data provided") 400.
Definition resp_outside : response :=
  Json "ok" (Some "User is outside a recognizable district") 200.
Definition resp_ok : response := Json "ok" None 200.
Definition resp_trip_ended : response :=
  Json "ok" (Some "Trip ended successfully.") 200.
Definition resp_not_found : response :=
  Json "error" (Some "User not found or no active trip.") 404.

(** The JSON object of a ping, typed as the client sends it; a field may be
    missing.  The body as a whole may be missing too ([None]). *)
Record ping_data := PingData {
  user_id : option string;
  lat : option Q;
  lon : option Q;
  fcm_token : option string
}.

Record end_trip_data := EndTripData { trip_user_id : option string }.

(** How the [try] block of [location_ping] ended. *)
Inductive try_outcome := Completed | CaughtKeyError | CaughtException.

(** Steps 4 to 7 of [location_ping], inside the [try]: look the district
    up, run the model, interpret the score, push the alert.  A [KeyError]
    (no such row, no such column) and any other exception (among them the
    use of a collaborator that is [None]) end the block early. *)
Definition alert_cycle (srv : server) (current_district fcm_token : string)
    : try_outcome * list event :=
  match district_data srv with
  | None => (CaughtException, [])
  | Some districts =>
    match districts !! current_district with
    | None => (CaughtKeyError, [Loc current_district])
    | Some district_info =>
      match district_info !! "crime_rate_per_capita" with
      | None => (CaughtKeyError, [Loc current_district])
      | Some rate =>
        match model_pipeline srv with
        | None => (CaughtException, [Loc current_district])
        | Some model =>
          match model rate with
          | None => (CaughtException, [Loc current_district; Predict rate])
          | Some predicted_score =>
            let message_details := interpret_score predicted_score in
            (Completed,
             ([Loc current_district; Predict rate]
                ++ send_push_notification (messaging_send srv) fcm_token
                     message_details)%list)
          end
        end
      end
    end
  end.

(** *** The readiness check of line 139 *)

(** What [bool(x)] does: it is true, it is false, or it raises. *)
Inductive truth := Truthy | Falsy | Raises.

(** [bool(model_pipeline)]: [None] is false; a pipeline has the length of
    its list of steps, and the one [model.py] saves has two, so it is
    true. *)
Definition bool_model_pipeline (model_pipeline : option (Q -> option Q))
    : truth :=
  match model_pipeline with Some _ => Truthy | None => Falsy end.

(** [bool(district_data)]: [None] is false; pandas gives a frame no truth
    value and raises [ValueError] when asked for one. *)
Definition bool_district_data
    (district_data : option (gmap string (gmap string Q))) : truth :=
  match district_data with Some _ => Raises | None => Falsy end.

(** [bool(geolocator)]: [None] is false; the geocoder is a plain object,
    which is true. *)
Definition bool_geolocator (geolocator : option (Q -> Q -> reverse_result))
    : truth :=
  match geolocator with Some _ => Truthy | None => Falsy end.

(** [all(xs)]: the truth values are taken from left to right, up to the
    first one that is false or raises. *)
Fixpoint py_all (xs : list truth) : truth :=
  match xs with
  | [] => Truthy
  | Truthy :: xs => py_all xs
  | Falsy :: _ => Falsy
  | Raises :: _ => Raises
  end.

(** *** [location_ping] *)

(** Lines 142 to 183 of [location_ping]: the handler proper, which runs
    once the check of line 139 has found the collaborators ready.
    [USER_LAST_DISTRICT] is the dictionary before the request; the second
    component of the result is the dictionary after it.  [body] is what
    [request.get_json()] returned; [not data] holds of [None] and of the
    empty object, which lacks every field. *)
Definition handle_ping (srv : server) (body : option ping_data)
    (USER_LAST_DISTRICT : gmap string string)
    : response * gmap string string * list event :=
  match body with
  | Some (PingData (Some user_id) (Some lat) (Some lon) (Some fcm_token)) =>
    let (current_district, calls) :=
      get_district_from_coords (geolocator srv) lat lon in
    match current_district with
    | None | Some "" => (resp_outside, USER_LAST_DISTRICT, calls)
    | Some current_district =>
      let last_known_district := USER_LAST_DISTRICT !! user_id in
      if bool_decide (Some current_district ≠ last_known_district) then
        let (_, calls') := alert_cycle srv current_district fcm_token in
        (resp_ok, <[user_id := current_district]> USER_LAST_DISTRICT,
         (calls ++ calls')%list)
      else (resp_ok, USER_LAST_DISTRICT, calls)
    end
  | _ => (resp_invalid, USER_LAST_DISTRICT, [])
  end.

(** [POST /location_ping]: the check of line 139, then the handler
    proper.  When the check raises, Flask answers 500. *)
Definition location_ping (srv : server) (body : option ping_data)
    (USER_LAST_DISTRICT : gmap string string)
    : response * gmap string string * list event :=
  match py_all [bool_model_pipeline (model_pipeline srv);
                bool_district_data (district_data srv);
                bool_geolocator (geolocator srv)] with
  | Truthy => handle_ping srv body USER_LAST_DISTRICT
  | Falsy => (resp_unavailable, USER_LAST_DISTRICT, [])
  | Raises => (InternalServerError, USER_LAST_DISTRICT, [])
  end.

(** [POST /end_trip].  [body] is what [request.get_json()] returned; on
    [None] the call [data.get] raises. *)
Definition end_trip (body : option end_trip_data)
    (USER_LAST_DISTRICT : gmap string string)
    : response * gmap string string :=
  match body with
  | None => (InternalServerError, USER_LAST_DISTRICT)
  | Some data =>
    match trip_user_id data with
    | Some user_id =>
      if bool_decide (user_id ≠ "")
         && bool_decide (is_Some (USER_LAST_DISTRICT !! user_id))
      then (resp_trip_ended, delete user_id USER_LAST_DISTRICT)
      else (resp_not_found, USER_LAST_DISTRICT)
    | None => (resp_not_found, USER_LAST_DISTRICT)
    end
  end.

(** ** Requests one after another *)


(** ** Requests in flight at the same time *)

(** The handler proper takes no lock and calls the network between
    reading [USER_LAST_DISTRICT] (line 155) and writing it (line 181).  Two
    handlers of the threaded server can therefore overlap.  The model is
    of handlers that are past the check of line 139; it cuts each once,
    between the read and the comparison that follows it, and runs each of
    the two parts without interruption, which allows fewer overlaps than
    the real handler does. *)
Module Interleaving.








End Interleaving.

(** ** A small world to run the endpoints in *)

(** District "A" scores 85 and "B" scores 30; "C" has no row in the
    dataset; the model raises on the row of "D". *)
Definition demo_reverse (lat lon : Q) : reverse_result :=
  if Qltb lat 10 then ReverseNothing
  else if Qltb lat 20 then ReverseLocation (Some {[ "county" := "A" ]})
  else if Qltb lat 30 then
    ReverseLocation (Some {[ "city" := "Visakhapatnam"; "suburb" := "B" ]})
  else if Qltb lat 40 then ReverseLocation (Some {[ "city_district" := "C" ]})
  else if Qltb lat 50 then ReverseLocation (Some {[ "county" := "D" ]})
  else if Qltb lat 60 then ReverseLocation None
  else ReverseRaises.

Definition demo_districts : gmap string (gmap string Q) :=
  {[ "A" := {[ "crime_rate_per_capita" := 120%Q ]};
     "B" := {[ "crime_rate_per_capita" := 900%Q ]};
     "D" := {[ "crime_rate_per_capita" := (-1)%Q ]} ]}.

Definition demo_predict (rate : Q) : option Q :=
  if Qltb rate 0 then None else if Qleb rate 500 then Some 85%Q else Some 30%Q.

Definition demo_server : server :=
  Server (Some demo_predict) (Some demo_districts) (Some demo_reverse)
    (fun _ => true).


(** The same world before the model file exists. *)
Definition demo_server_no_model : server :=
  Server None (Some demo_districts) (Some demo_reverse) (fun _ => true).

(** The same world when the geocoder could not be built. *)
Definition demo_server_no_geocoder : server :=
  Server (Some demo_predict) (Some demo_districts) None (fun _ => true).

Definition ping (u : string) (lat lon : Q) (tok : string) : option ping_data :=
  Some (PingData (Some u) (Some lat) (Some lon) (Some tok)).

(** ** Vocabulary of the properties *)

(** All three collaborators checked by [location_ping] are loaded. *)
Definition available (srv : server) : Prop :=
  is_Some (model_pipeline srv) ∧ is_Some (district_data srv)
  ∧ is_Some (geolocator srv).

(** The geocoder of the server maps the coordinates to the district
    [z], which is not the empty string. *)
Definition resolves (srv : server) (lat lon : Q) (z : string) : Prop :=
  z ≠ "" ∧ (get_district_from_coords (geolocator srv) lat lon).1 = Some z.

(** The dataset has a row for [z] with the rate [rate]. *)
Definition has_rate (srv : server) (z : string) (rate : Q) : Prop :=
  ∃ districts row, district_data srv = Some districts
    ∧ districts !! z = Some row ∧ row !! "crime_rate_per_capita" = Some rate.

(** The model scores the rate. *)
Definition scores (srv : server) (rate score : Q) : Prop :=
  ∃ model, model_pipeline srv = Some model ∧ model rate = Some score.


(** The body lacks a required field, or there is no body. *)
Definition incomplete (body : option ping_data) : Prop :=
  match body with
  | None => True
  | Some d =>
    user_id d = None ∨ lat d = None ∨ lon d = None ∨ fcm_token d = None
  end.

(** ** Section 1 of the source: initialisation *)

(** What a loader called at import time can do: return the object, raise
    [FileNotFoundError], or raise anything else. *)
Inductive load_result (A : Type) :=
  | Loaded (a : A)
  | FileNotFound
  | OtherError.
Arguments Loaded {A} a.
Arguments FileNotFound {A}.
Arguments OtherError {A}.

(** The machine the module is imported on.
    - [firebase_initialize]: [false] when reading the key file or
      [firebase_admin.initialize_app] raised.
    - [nominatim]: [None] when the [Nominatim] constructor raised.
    - [joblib_load], [read_csv]: loading the model file and the dataset
      (for the dataset, [read_csv] followed by [set_index]).
    - [fcm]: what [messaging.send] does once the Firebase app exists;
      without the app every [messaging.send] raises. *)
Record environment := Environment {
  firebase_initialize : bool;
  nominatim : option (Q -> Q -> reverse_result);
  joblib_load : load_result (Q -> option Q);
  read_csv : load_result (gmap string (gmap string Q));
  fcm : fcm_message -> bool
}.

(** Lines 18 to 49.  Each [try] catches what its [except] names: any
    exception for Firebase and the geocoder, [FileNotFoundError] only for
    the model and the dataset; another error there ends the import, and no
    server comes up ([None]). *)
Definition startup (env : environment) : option server :=
  let geolocator := nominatim env in
  match joblib_load env with
  | OtherError => None
  | loaded_model =>
    let model_pipeline :=
      match loaded_model with Loaded m => Some m | _ => None end in
    match read_csv env with
    | OtherError => None
    | loaded_data =>
      let district_data :=
        match loaded_data with Loaded d => Some d | _ => None end in
      Some (Server model_pipeline district_data geolocator
              (λ message, firebase_initialize env && fcm env message))
    end
  end.

(** ** Both routes *)

(** A request to the application, with the collaborators as they are when
    it is handled. *)
Inductive request :=
  | LocationPing (srv : server) (body : option ping_data)
  | EndTrip (body : option end_trip_data).

Definition handle (rq : request) (USER_LAST_DISTRICT : gmap string string)
    : response * gmap string string * list event :=
  match rq with
  | LocationPing srv body => location_ping srv body USER_LAST_DISTRICT
  | EndTrip body =>
    let (r, USER_LAST_DISTRICT) := end_trip body USER_LAST_DISTRICT in
    (r, USER_LAST_DISTRICT, [])
  end.

(** Requests handled one after another; the dictionary they leave. *)
Definition handle_all (requests : list request)
    (USER_LAST_DISTRICT : gmap string string) : gmap string string :=
  foldl (λ st rq, (handle rq st).1.2) USER_LAST_DISTRICT requests.

(** ** More vocabulary *)

(** The geocoder gives no usable district for the coordinates: none at
    all, or the empty string. *)
Definition unresolved (srv : server) (lat lon : Q) : Prop :=
  (get_district_from_coords (geolocator srv) lat lon).1 = None
  ∨ (get_district_from_coords (geolocator srv) lat lon).1 = Some "".

(** The four ways the handler proper can go, with the response, the
    dictionary and the calls of each. *)
Inductive handler_result (srv : server) (body : option ping_data)
    (st : gmap string string)
    : response * gmap string string * list event → Prop :=
  | HandlerInvalid :
      incomplete body →
      handler_result srv body st (resp_invalid, st, [])
  | HandlerOutside u lat lon tok calls :
      body = ping u lat lon tok → unresolved srv lat lon →
      calls = [] ∨ calls = [Reverse lat lon] →
      handler_result srv body st (resp_outside, st, calls)
  | HandlerSame u lat lon tok z :
      body = ping u lat lon tok → resolves srv lat lon z →
      st !! u = Some z →
      handler_result srv body st (resp_ok, st, [Reverse lat lon])
  | HandlerEntered u lat lon tok z :
      body = ping u lat lon tok → resolves srv lat lon z →
      st !! u ≠ Some z →
      handler_result srv body st
        (resp_ok, <[u := z]> st,
         Reverse lat lon :: (alert_cycle srv z tok).2).

(** The ways a ping can go: stopped by the check of line 139, which
    answers 503 or raises, or handled. *)
Inductive ping_result (srv : server) (body : option ping_data)
    (st : gmap string string)
    : response * gmap string string * list event → Prop :=
  | PingUnavailable :
      ping_result srv body st (resp_unavailable, st, [])
  | PingRaised :
      ping_result srv body st (InternalServerError, st, [])
  | PingHandled res :
      handler_result srv body st res → ping_result srv body st res.

(** A call with the outcome of the delivery forgotten. *)
Definition undelivered (e : event) : event :=
  match e with Send m _ => Send m false | _ => e end.

(** A world where Firebase is down: as [demo_server], but every
    [messaging.send] raises. *)
Definition demo_server_fcm_down : server :=
  Server (Some demo_predict) (Some demo_districts) (Some demo_reverse)
    (λ _, false).

Definition demo_environment : environment :=
  Environment false (Some demo_reverse) FileNotFound (Loaded demo_districts)
    (λ _, true).

(** * Properties *)

(** ** The score interpreter *)

Lemma Qleb_spec (x y : Q) : Qleb x y = true ↔ (x <= y)%Q.
Proof. apply Qle_bool_iff. Qed.

Lemma Qltb_spec (x y : Q) : Qltb x y = true ↔ (x < y)%Q.
Proof.
  unfold Qltb. rewrite Qlt_alt.
  destruct (x ?= y)%Q; split; congruence.
Qed.

Lemma Qleb_false (x y : Q) : Qleb x y = false ↔ (y < x)%Q.
Proof.
  rewrite <- not_true_iff_false, Qleb_spec. split; [apply Qnot_le_lt|].
  intros H1 H2. lra.
Qed.

Lemma Qltb_false (x y : Q) : Qltb x y = false ↔ (y <= x)%Q.
Proof.
  rewrite <- not_true_iff_false, Qltb_spec. split; [apply Qnot_lt_le|].
  intros H1 H2. lra.
Qed.

Ltac case_Qleb x y H :=
  destruct (Qleb x y) eqn:H;
  [apply Qleb_spec in H | apply Qleb_false in H].
Ltac case_Qltb x y H :=
  destruct (Qltb x y) eqn:H;
  [apply Qltb_spec in H | apply Qltb_false in H].

(** Every combination of the seven tests of [interpret_score]; the
    combinations no score satisfies are closed at once. *)
Ltac score_cases s :=
  let H95 := fresh "H95" in let H80 := fresh "H80" in
  let H60 := fresh "H60" in let H40 := fresh "H40" in
  let L95 := fresh "L95" in let L80 := fresh "L80" in
  let L60 := fresh "L60" in
  unfold interpret_score;
  case_Qleb (95 : Q) s H95; case_Qleb (80 : Q) s H80;
  case_Qleb (60 : Q) s H60; case_Qleb (40 : Q) s H40;
  case_Qltb s (95 : Q) L95; case_Qltb s (80 : Q) L80;
  case_Qltb s (60 : Q) L60;
  try lra; cbn [andb level].

(** C3. The score interpreter is a total function of the score with
    half-open bands: level 5 exactly from 95 up, level 4 on [80, 95),
    level 3 on [60, 80), level 2 on [40, 60) and level 1 below 40; every
    score, negative and above 100 included, gets one of the five levels;
    and the boundary values 95, 94.999, 80, 59.9999, 40 and 39.9 get the
    levels 5, 4, 4, 2, 2 and 1. *)
Theorem interpret_score_bands (s : Q) :
  let l := level (interpret_score s) in
  (l = 5 ↔ (95 <= s)%Q)
  ∧ (l = 4 ↔ (80 <= s)%Q ∧ (s < 95)%Q)
  ∧ (l = 3 ↔ (60 <= s)%Q ∧ (s < 80)%Q)
  ∧ (l = 2 ↔ (40 <= s)%Q ∧ (s < 60)%Q)
  ∧ (l = 1 ↔ (s < 40)%Q)
  ∧ (1 ≤ l ≤ 5)%Z
  ∧ level (interpret_score 95) = 5
  ∧ level (interpret_score (94999 # 1000)) = 4
  ∧ level (interpret_score 80) = 4
  ∧ level (interpret_score (599999 # 10000)) = 2
  ∧ level (interpret_score 40) = 2
  ∧ level (interpret_score (399 # 10)) = 1
  ∧ level (interpret_score (-7)) = 1
  ∧ level (interpret_score 250) = 5.
Proof.
  cbv zeta.
  assert (Hbands :
    (level (interpret_score s) = 5 ↔ (95 <= s)%Q)
    ∧ (level (interpret_score s) = 4 ↔ (80 <= s)%Q ∧ (s < 95)%Q)
    ∧ (level (interpret_score s) = 3 ↔ (60 <= s)%Q ∧ (s < 80)%Q)
    ∧ (level (interpret_score s) = 2 ↔ (40 <= s)%Q ∧ (s < 60)%Q)
    ∧ (level (interpret_score s) = 1 ↔ (s < 40)%Q)
    ∧ (1 ≤ level (interpret_score s) ≤ 5)%Z).
  { score_cases s;
      (repeat split; intros; try discriminate; try lia; try lra;
       try (exfalso; lra); try (destruct_and?; exfalso; lra)). }
  destruct Hbands as (H5 & H4 & H3 & H2 & H1 & Hr).
  split_and!; try assumption; try apply Hr; reflexivity.
Qed.

Example interpret_score_85 :
  level (interpret_score 85) = 4 /\ color_code (interpret_score 85) = "BLUE".
Proof. split; reflexivity. Qed.

Example round1_ties :
  round1 (8445 # 100) = (844 # 10)%Q /\ round1 (8455 # 100) = (846 # 10)%Q
  /\ round1 (8451 # 100) = (845 # 10)%Q /\ round1 (-(5 # 100)) = (0 # 10)%Q.
Proof. repeat split; reflexivity. Qed.

Example demo_first_ping :
  handle_ping demo_server (ping "u1" 15 83 "t1") ∅
  = (resp_ok, {[ "u1" := "A" ]},
     [Reverse 15 83; Loc "A"; Predict 120]
       ++ send_push_notification (fun _ => true) "t1" (interpret_score 85))%list.
Proof. vm_compute. reflexivity. Qed.

(** Closes [available], [resolves], [has_rate] and [scores] on a concrete
    server by evaluation. *)
Ltac by_evaluation :=
  lazymatch goal with
  | |- available _ => unfold available; simpl; eauto
  | |- is_Some _ => eexists; reflexivity
  | |- resolves _ _ _ _ => split; [discriminate | reflexivity]
  | |- has_rate _ _ _ =>
    eexists _, _; split_and!; [reflexivity | reflexivity | reflexivity]
  | |- scores _ _ _ => eexists; split; [reflexivity | reflexivity]
  | |- _ => first [reflexivity | discriminate | by vm_compute]
  end.

(** ** The check of line 139 *)

Lemma location_ping_not_ready (srv : server) (body : option ping_data)
    (st : gmap string string) :
  model_pipeline srv = None ∨ district_data srv = None →
  location_ping srv body st = (resp_unavailable, st, []).
Proof.
  unfold location_ping. intros [-> | ->]; simpl; [done|].
  by destruct (model_pipeline srv).
Qed.

Lemma location_ping_raises (srv : server) (body : option ping_data)
    (st : gmap string string) :
  is_Some (model_pipeline srv) → is_Some (district_data srv) →
  location_ping srv body st = (InternalServerError, st, []).
Proof. unfold location_ping. by intros [m ->] [d ->]. Qed.

(** No ping gets past line 139: the check answers 503 or raises. *)
Lemma location_ping_stopped (srv : server) (body : option ping_data)
    (st : gmap string string) :
  location_ping srv body st = (resp_unavailable, st, [])
  ∨ location_ping srv body st = (InternalServerError, st, []).
Proof.
  destruct (model_pipeline srv) as [m|] eqn:Em;
    [|left; apply location_ping_not_ready; by left].
  destruct (district_data srv) as [d|] eqn:Ed;
    [|left; apply location_ping_not_ready; by right].
  right. apply location_ping_raises; by rewrite ?Em, ?Ed.
Qed.

(** C6. While the geocoder is not loaded but the model and the dataset
    are, a ping is not answered with the 503 "not properly configured"
    error: the check of line 139 raises on the truth value of the
    dataset before it reaches the geocoder, and the answer is 500.  The
    dictionary is left as it was and no call is made. *)
Theorem ping_without_geocoder (srv : server) (body : option ping_data)
    (st : gmap string string) :
  is_Some (model_pipeline srv) → is_Some (district_data srv) →
  geolocator srv = None →
  location_ping srv body st = (InternalServerError, st, [])
  ∧ InternalServerError ≠ resp_unavailable.
Proof.
  intros Hm Hd _. split; [by apply location_ping_raises | discriminate].
Qed.

Lemma ping_without_geocoder_witness :
  location_ping demo_server_no_geocoder (ping "u1" 15 83 "t1")
    {[ "u1" := "A" ]}
  = (InternalServerError, {[ "u1" := "A" ]}, [])
  ∧ InternalServerError ≠ resp_unavailable.
Proof.
  apply (ping_without_geocoder demo_server_no_geocoder); by_evaluation.
Defined.

(** C9, as the specification words it, fails: a ping without a body that
    reaches a server whose model is not loaded is answered 503, not 400. *)
Lemma incomplete_ping_on_unready_server :
  incomplete None
  ∧ location_ping demo_server_no_model None ∅ = (resp_unavailable, ∅, [])
  ∧ resp_unavailable ≠ resp_invalid.
Proof. split_and!; [exact I | reflexivity | discriminate]. Qed.

(** C9, amended. A ping whose body is missing, or lacks [user_id], [lat],
    [lon] or [fcm_token], never changes the dictionary and never calls the
    geocoder, the dataset, the model or the dispatcher; while the model or
    the dataset is not loaded it is answered with the 503 error, the
    check of the collaborators coming first. *)
Theorem ping_incomplete (srv : server) (body : option ping_data)
    (st : gmap string string) :
  incomplete body →
  (location_ping srv body st).1.2 = st
  ∧ (location_ping srv body st).2 = []
  ∧ (model_pipeline srv = None ∨ district_data srv = None →
     location_ping srv body st = (resp_unavailable, st, [])).
Proof.
  intros _. split_and!.
  - by destruct (location_ping_stopped srv body st) as [-> | ->].
  - by destruct (location_ping_stopped srv body st) as [-> | ->].
  - apply location_ping_not_ready.
Qed.

Lemma ping_incomplete_witness :
  let body := Some (PingData (Some "u1") None (Some 83%Q) (Some "t1")) in
  incomplete body
  ∧ location_ping demo_server_no_model body {[ "u1" := "A" ]}
    = (resp_unavailable, {[ "u1" := "A" ]}, []).
Proof.
  cbv zeta. split.
  - right. left. reflexivity.
  - apply (ping_incomplete demo_server_no_model
             (Some (PingData (Some "u1") None (Some 83%Q) (Some "t1")))).
    + right. left. reflexivity.
    + left. reflexivity.
Defined.

(** ** The handler proper, one request *)

Section OnePing.

Variables (srv : server) (st : gmap string string).

Lemma get_district_calls geo lat lon :
  (get_district_from_coords (Some geo) lat lon).2 = [Reverse lat lon].
Proof.
  unfold get_district_from_coords. by destruct (geo lat lon).
Qed.

Lemma get_district_some_calls g lat lon z :
  (get_district_from_coords g lat lon).1 = Some z →
  (get_district_from_coords g lat lon).2 = [Reverse lat lon].
Proof.
  destruct g as [geo|]; [intros _; apply get_district_calls | done].
Qed.



Lemma alert_cycle_completed z tok rate score :
  has_rate srv z rate → scores srv rate score →
  alert_cycle srv z tok
  = (Completed,
     ([Loc z; Predict rate]
        ++ send_push_notification (messaging_send srv) tok
             (interpret_score score))%list).
Proof.
  intros (districts & row & Hd & Hz & Hr) (model & Hm & Hs).
  unfold alert_cycle. by rewrite Hd, Hz, Hr, Hm, Hs.
Qed.

(** Once the coordinates resolve, the handler only compares the district
    with the stored one. *)
Lemma handle_ping_resolved u lat lon tok z :
  resolves srv lat lon z →
  handle_ping srv (ping u lat lon tok) st
  = if bool_decide (Some z ≠ st !! u)
    then (resp_ok, <[u := z]> st,
          Reverse lat lon :: (alert_cycle srv z tok).2)
    else (resp_ok, st, [Reverse lat lon]).
Proof.
  intros (Hz & Hres).
  pose proof (get_district_some_calls _ lat lon z Hres) as Hcalls.
  unfold handle_ping, ping.
  destruct (get_district_from_coords (geolocator srv) lat lon) as [cur calls].
  simpl in Hres, Hcalls. subst cur calls.
  destruct z as [|a z']; [done|].
  case_bool_decide; [|done].
  by destruct (alert_cycle srv (String a z') tok).
Qed.

Lemma handle_ping_transition u lat lon tok z :
  resolves srv lat lon z → st !! u ≠ Some z →
  handle_ping srv (ping u lat lon tok) st
  = (resp_ok, <[u := z]> st, Reverse lat lon :: (alert_cycle srv z tok).2).
Proof.
  intros Hres Hne. rewrite (handle_ping_resolved _ _ _ _ z Hres).
  rewrite bool_decide_true; [done|congruence].
Qed.

Lemma handle_ping_same u lat lon tok z :
  resolves srv lat lon z → st !! u = Some z →
  handle_ping srv (ping u lat lon tok) st = (resp_ok, st, [Reverse lat lon]).
Proof.
  intros Hres Heq. rewrite (handle_ping_resolved _ _ _ _ z Hres).
  rewrite bool_decide_false; [done|]. intros Hne. by apply Hne.
Qed.

(** Lines 142 to 145: a body that is missing or lacks a field is answered
    400 by the handler proper. *)
Lemma handle_ping_incomplete body :
  incomplete body → handle_ping srv body st = (resp_invalid, st, []).
Proof.
  intros Hinc. unfold handle_ping.
  destruct body as [[u la lo tk]|]; [|done]. simpl in Hinc.
  destruct Hinc as [-> | [-> | [-> | ->]]]; [done|..].
  - by destruct u.
  - by destruct u, la.
  - by destruct u, la, lo.
Qed.

End OnePing.

(** ** No change of district *)




(** ** A change of district *)










(** ** [end_trip] *)





(** After [end_trip] the handler proper takes the next resolved ping of
    the user for an entry into a new district. *)
Lemma handle_ping_after_end_trip (srv : server) (st : gmap string string)
    (u z : string) (lat lon : Q) (tok : string) (rate score : Q) :
  resolves srv lat lon z → has_rate srv z rate → scores srv rate score →
  handle_ping srv (ping u lat lon tok) (delete u st)
  = (resp_ok, <[u := z]> (delete u st),
     ([Reverse lat lon; Loc z; Predict rate]
        ++ send_push_notification (messaging_send srv) tok
             (interpret_score score))%list).
Proof.
  intros Hres Hrate Hscore.
  rewrite (handle_ping_transition srv (delete u st) u lat lon tok z Hres).
  - by rewrite (alert_cycle_completed srv z tok rate score Hrate Hscore).
  - by rewrite lookup_delete_eq.
Qed.

(** C10. An [end_trip] request whose body has no [user_id], or has the
    empty string as [user_id], is answered not-found (404), never with the
    invalid-data error, and the dictionary is left as it was; a user
    without an active trip gets the very same response. *)
Theorem end_trip_without_user (st : gmap string string) :
  end_trip (Some (EndTripData None)) st = (resp_not_found, st)
  ∧ end_trip (Some (EndTripData (Some ""))) st = (resp_not_found, st)
  ∧ resp_not_found ≠ resp_invalid
  ∧ ∀ u, st !! u = None →
      end_trip (Some (EndTripData (Some u))) st = (resp_not_found, st).
Proof.
  split_and!; [done | done | discriminate |].
  intros u Hu. unfold end_trip. simpl. rewrite Hu.
  rewrite (bool_decide_false (is_Some None)); [|by intros [? ?]].
  by rewrite andb_false_r.
Qed.

Lemma end_trip_without_user_witness :
  end_trip (Some (EndTripData (Some "u2"))) {[ "u1" := "B" ]}
  = (resp_not_found, {[ "u1" := "B" ]}).
Proof.
  apply (end_trip_without_user {[ "u1" := "B" ]}). reflexivity.
Defined.

(** ** Pings of one user for one new district *)









(** ** A whole trip *)

(** User "u1" enters "A" (score 85), stays, moves to "B" (score 30), ends
    the trip and pings from "B" again: what the handler proper and
    [end_trip] make of it, and what the operation as a whole does. *)
Example one_trip :
  let '(r1, st1, c1) := handle_ping demo_server (ping "u1" 15 83 "t1") ∅ in
  let '(r2, st2, c2) := handle_ping demo_server (ping "u1" 16 83 "t1") st1 in
  let '(r3, st3, c3) := handle_ping demo_server (ping "u1" 25 83 "t1") st2 in
  let '(r4, st4) := end_trip (Some (EndTripData (Some "u1"))) st3 in
  let '(r5, st5, c5) := handle_ping demo_server (ping "u1" 25 83 "t1") st4 in
  let pushed (calls : list event) :=
    omap (λ e, match e with
               | Send m _ => Some (data_level (data m), data_color_code (data m))
               | _ => None
               end) calls in
  [r1; r2; r3; r4; r5] = [resp_ok; resp_ok; resp_ok; resp_trip_ended; resp_ok]
  ∧ [st1; st2; st3; st4; st5]
    = [{[ "u1" := "A" ]}; {[ "u1" := "A" ]}; {[ "u1" := "B" ]}; ∅;
       {[ "u1" := "B" ]}]
  ∧ [pushed c1; pushed c2; pushed c3; pushed c5]
    = [[(4, "BLUE")]; []; [(1, "RED")]; [(1, "RED")]]
  ∧ location_ping demo_server (ping "u1" 15 83 "t1") ∅
    = (InternalServerError, ∅, []).
Proof. vm_compute. by split_and!. Qed.
(** * Further properties of the code *)

(** ** [interpret_score]: the bands and the message *)

(** The four tests of [interpret_score], in the order the code makes
    them, with the band each outcome stands for. *)
Lemma score_tests (s : Q) :
  (Qleb 95 s = true ∧ (95 <= s)%Q)
  ∨ (Qleb 95 s = false ∧ Qleb 80 s && Qltb s 95 = true
     ∧ (80 <= s)%Q ∧ (s < 95)%Q)
  ∨ (Qleb 95 s = false ∧ Qleb 80 s && Qltb s 95 = false
     ∧ Qleb 60 s && Qltb s 80 = true ∧ (60 <= s)%Q ∧ (s < 80)%Q)
  ∨ (Qleb 95 s = false ∧ Qleb 80 s && Qltb s 95 = false
     ∧ Qleb 60 s && Qltb s 80 = false ∧ Qleb 40 s && Qltb s 60 = true
     ∧ (40 <= s)%Q ∧ (s < 60)%Q)
  ∨ (Qleb 95 s = false ∧ Qleb 80 s && Qltb s 95 = false
     ∧ Qleb 60 s && Qltb s 80 = false ∧ Qleb 40 s && Qltb s 60 = false
     ∧ (s < 40)%Q).
Proof.
  case_Qleb (95 : Q) s H95; [by left | right].
  assert (Qltb s 95 = true) as L95 by by apply Qltb_spec.
  case_Qleb (80 : Q) s H80; [left; by rewrite L95 | right].
  assert (Qltb s 80 = true) as L80 by by apply Qltb_spec.
  case_Qleb (60 : Q) s H60; [left; by rewrite L80 | right].
  assert (Qltb s 60 = true) as L60 by by apply Qltb_spec.
  case_Qleb (40 : Q) s H40; [left; by rewrite L60 | right].
  done.
Qed.

(** Every score is presented like the lower bound of its band ([0] for
    the lowest band), the displayed score apart. *)
Lemma interpret_score_band (s : Q) :
  ∃ (c : Q) (l : Z),
    (((95 <= s)%Q ∧ c = 95%Q ∧ l = 5)
     ∨ ((80 <= s)%Q ∧ (s < 95)%Q ∧ c = 80%Q ∧ l = 4)
     ∨ ((60 <= s)%Q ∧ (s < 80)%Q ∧ c = 60%Q ∧ l = 3)
     ∨ ((40 <= s)%Q ∧ (s < 60)%Q ∧ c = 40%Q ∧ l = 2)
     ∨ ((s < 40)%Q ∧ c = 0%Q ∧ l = 1))
    ∧ level (interpret_score s) = l
    ∧ level_name (interpret_score s) = level_name (interpret_score c)
    ∧ tagline_label (tagline (interpret_score s))
      = tagline_label (tagline (interpret_score c))
    ∧ color_code (interpret_score s) = color_code (interpret_score c)
    ∧ emoji (interpret_score s) = emoji (interpret_score c)
    ∧ advice (interpret_score s) = advice (interpret_score c)
    ∧ display_score (tagline (interpret_score s)) = round1 s.
Proof.
  unfold interpret_score at 1 2 4 6 8 10 12.
  destruct (score_tests s)
    as [(T5 & ?) | [(T5 & T4 & ? & ?) | [(T5 & T4 & T3 & ? & ?)
       | [(T5 & T4 & T3 & T2 & ? & ?) | (T5 & T4 & T3 & T2 & ?)]]]].
  - exists 95%Q, 5. rewrite T5.
    split; [by left | split_and!; reflexivity].
  - exists 80%Q, 4. rewrite T5, T4.
    split; [by right; left | split_and!; reflexivity].
  - exists 60%Q, 3. rewrite T5, T4, T3.
    split; [by right; right; left | split_and!; reflexivity].
  - exists 40%Q, 2. rewrite T5, T4, T3, T2.
    split; [by right; right; right; left | split_and!; reflexivity].
  - exists 0%Q, 1. rewrite T5, T4, T3, T2.
    split; [by right; right; right; right | split_and!; reflexivity].
Qed.

(** X1. A higher score never gets a lower level. *)
Theorem interpret_score_monotone (s1 s2 : Q) :
  (s1 <= s2)%Q →
  (level (interpret_score s1) ≤ level (interpret_score s2))%Z.
Proof.
  intros Hle.
  destruct (interpret_score_band s1) as (c1 & l1 & Hb1 & -> & _).
  destruct (interpret_score_band s2) as (c2 & l2 & Hb2 & -> & _).
  destruct Hb1 as [?|[?|[?|[?|?]]]], Hb2 as [?|[?|[?|[?|?]]]];
    destruct_and?; subst l1 l2; first [lia | lra].
Qed.

Lemma interpret_score_monotone_witness :
  (level (interpret_score (399 # 10)) ≤ level (interpret_score 40))%Z.
Proof. apply (interpret_score_monotone (399 # 10) 40). by vm_compute. Defined.

(** X2. Everything in the message but the displayed score is fixed by the
    level: two scores of the same level get the same name, tagline label,
    colour, emoji and advice. *)
Theorem interpret_score_fixed_by_level (s1 s2 : Q) :
  level (interpret_score s1) = level (interpret_score s2) →
  level_name (interpret_score s1) = level_name (interpret_score s2)
  ∧ tagline_label (tagline (interpret_score s1))
    = tagline_label (tagline (interpret_score s2))
  ∧ color_code (interpret_score s1) = color_code (interpret_score s2)
  ∧ emoji (interpret_score s1) = emoji (interpret_score s2)
  ∧ advice (interpret_score s1) = advice (interpret_score s2).
Proof.
  destruct (interpret_score_band s1)
    as (c1 & l1 & Hb1 & -> & -> & -> & -> & -> & -> & _).
  destruct (interpret_score_band s2)
    as (c2 & l2 & Hb2 & -> & -> & -> & -> & -> & -> & _).
  intros <-.
  assert (c1 = c2) as ->; [|done].
  destruct Hb1 as [?|[?|[?|[?|?]]]], Hb2 as [?|[?|[?|[?|?]]]];
    destruct_and?; subst; first [done | lia].
Qed.

Lemma interpret_score_fixed_by_level_witness :
  color_code (interpret_score 81) = color_code (interpret_score (949 # 10)).
Proof.
  apply (interpret_score_fixed_by_level 81 (949 # 10)). reflexivity.
Defined.

(** ** [interpret_score]: the displayed score *)

Lemma tenths_eq (n : Z) : ((n # 10) == inject_Z n * (1 # 10))%Q.
Proof. unfold Qeq, Qmult, inject_Z. simpl. lia. Qed.

(** X4. The level is taken from the score, the tagline shows the rounded
    score: a score less than 0.05 under a band's lower bound (95, 80, 60
    or 40) is shown as that bound, yet gets the level of the band below. *)
Theorem display_score_reaches_bound (b : Z) (s : Q) :
  b = 95 ∨ b = 80 ∨ b = 60 ∨ b = 40 →
  (inject_Z b - (1 # 20) <= s)%Q → (s < inject_Z b)%Q →
  (display_score (tagline (interpret_score s)) == inject_Z b)%Q
  ∧ level (interpret_score s) = level (interpret_score (inject_Z b)) - 1.
Proof.
  intros Hb Hlo Hhi.
  destruct (interpret_score_band s) as (c & l & Hband & -> & _ & _ & _ & _ & _ & ->).
  split.
  - unfold round1.
    assert (Qfloor (s * 10) = 10 * b - 1) as ->.
    { pose proof (Qfloor_le (s * 10)) as Hf1.
      pose proof (Qlt_floor (s * 10)) as Hf2.
      rewrite inject_Z_plus in Hf2. change (inject_Z 1) with 1%Q in Hf2.
      assert (Qfloor (s * 10) < 10 * b)%Z.
      { rewrite Zlt_Qlt, inject_Z_mult.
        change (inject_Z 10) with 10%Q. lra. }
      assert (10 * b - 1 < Qfloor (s * 10) + 1)%Z; [|lia].
      rewrite Zlt_Qlt. unfold Z.sub.
      rewrite !inject_Z_plus, inject_Z_opp, inject_Z_mult.
      change (inject_Z 10) with 10%Q. change (inject_Z 1) with 1%Q. lra. }
    assert (Z.even (10 * b - 1) = false) as ->.
    { rewrite Z.even_sub, Z.even_mul. reflexivity. }
    replace (10 * b - 1 + 1) with (10 * b) by lia.
    assert (inject_Z (10 * b - 1) == 10 * inject_Z b - 1)%Q as Hinj.
    { unfold Z.sub. rewrite inject_Z_plus, inject_Z_opp, inject_Z_mult.
      reflexivity. }
    destruct (s * 10 - inject_Z (10 * b - 1) ?= 1 # 2)%Q eqn:E.
    + rewrite tenths_eq, inject_Z_mult. change (inject_Z 10) with 10%Q. lra.
    + apply Qlt_alt in E. rewrite Hinj in E. lra.
    + rewrite tenths_eq, inject_Z_mult. change (inject_Z 10) with 10%Q. lra.
  - destruct Hb as [-> | [-> | [-> | ->]]];
      change (inject_Z 95) with 95%Q in *; change (inject_Z 80) with 80%Q in *;
      change (inject_Z 60) with 60%Q in *; change (inject_Z 40) with 40%Q in *;
      destruct Hband as [?|[?|[?|[?|?]]]]; destruct_and?; subst l;
      first [reflexivity | lra].
Qed.

Lemma display_score_reaches_bound_witness :
  (display_score (tagline (interpret_score (9496 # 100))) == inject_Z 95)%Q
  ∧ level (interpret_score (9496 # 100))
    = level (interpret_score (inject_Z 95)) - 1.
Proof.
  apply (display_score_reaches_bound 95 (9496 # 100));
    [by left | by vm_compute | by vm_compute].
Defined.

(** ** [get_district_from_coords] *)

(** X5. With a geocoder that returns a location with an address, the
    district is the value of the first key present among county,
    city_district, suburb and city, in that order (whatever that value
    is, the empty string included), and [None] when none is present;
    the geocoder is called once. *)
Theorem district_first_present_key (geo : Q → Q → reverse_result)
    (lat lon : Q) (address : gmap string string) :
  geo lat lon = ReverseLocation (Some address) →
  get_district_from_coords (Some geo) lat lon
  = (head (omap (λ k, address !! k)
             ["county"; "city_district"; "suburb"; "city"]),
     [Reverse lat lon]).
Proof.
  intros Hgeo. unfold get_district_from_coords, get_or. rewrite Hgeo.
  change (default ∅ (Some address)) with address.
  cbn [omap list_omap].
  destruct (address !! "county"), (address !! "city_district"),
    (address !! "suburb"), (address !! "city"); reflexivity.
Qed.

Lemma district_first_present_key_witness :
  get_district_from_coords (Some demo_reverse) 25 83
  = (head (omap (λ k, ({[ "city" := "Visakhapatnam"; "suburb" := "B" ]}
                         : gmap string string) !! k)
             ["county"; "city_district"; "suburb"; "city"]),
     [Reverse 25 83]).
Proof.
  apply (district_first_present_key demo_reverse 25 83). reflexivity.
Defined.

(** X6. Every failure of the geocoder looks the same to the caller: no
    geocoder, an exception, no location, a location without an address or
    an address without any of the four keys all give [None], after one
    call of the geocoder when there is one and none otherwise. *)
Theorem district_none (g : option (Q → Q → reverse_result)) (lat lon : Q) :
  match g with
  | None => True
  | Some geo =>
    geo lat lon = ReverseRaises ∨ geo lat lon = ReverseNothing
    ∨ geo lat lon = ReverseLocation None
    ∨ ∃ address, geo lat lon = ReverseLocation (Some address)
        ∧ Forall (λ k, address !! k = None)
            ["county"; "city_district"; "suburb"; "city"]
  end →
  get_district_from_coords g lat lon
  = (None, match g with Some _ => [Reverse lat lon] | None => [] end).
Proof.
  destruct g as [geo|]; [|done].
  intros [H | [H | [H | (address & H & Hkeys)]]];
    unfold get_district_from_coords; rewrite H; try done.
  apply Forall_cons in Hkeys as [H1 Hkeys].
  apply Forall_cons in Hkeys as [H2 Hkeys].
  apply Forall_cons in Hkeys as [H3 Hkeys].
  apply Forall_cons in Hkeys as [H4 _].
  unfold get_or. change (default ∅ (Some address)) with address.
  by rewrite H1, H2, H3, H4.
Qed.

Lemma district_none_witness :
  get_district_from_coords (Some demo_reverse) 70 83 = (None, [Reverse 70 83]).
Proof.
  apply (district_none (Some demo_reverse) 70 83). left. reflexivity.
Defined.

(** ** A ping: every way it can go *)

(** Fills the calls a handler did not get to with arbitrary ones. *)
Ltac pad_calls :=
  repeat first
    [ eexists 0%Q | eexists "" | eexists true
    | eexists (FcmMessage "" (Tagline "" 0%Q)
                 (FcmData 0 "" (Tagline "" 0%Q) "" "") "") ].

Lemma alert_cycle_calls (srv : server) (z tok : string) :
  ∃ rate m d,
    (alert_cycle srv z tok).2 `prefix_of` [Loc z; Predict rate; Send m d].
Proof.
  unfold alert_cycle.
  destruct (district_data srv) as [districts|];
    [|pad_calls; apply prefix_nil].
  destruct (districts !! z) as [row|]; [|pad_calls; by eexists].
  destruct (row !! "crime_rate_per_capita") as [rate|];
    [|pad_calls; by eexists].
  destruct (model_pipeline srv) as [model|];
    [|exists rate; pad_calls; by eexists].
  destruct (model rate) as [score|]; [|exists rate; pad_calls; by eexists].
  eexists rate, _, _. unfold send_push_notification. simpl. reflexivity.
Qed.

Lemma alert_cycle_no_reverse (srv : server) (z tok : string) :
  List.filter is_reverse (alert_cycle srv z tok).2 = [].
Proof.
  destruct (alert_cycle_calls srv z tok) as (rate & m & d & k & Hk).
  destruct (alert_cycle srv z tok).2 as [|e1 [|e2 [|e3 [|e4 l]]]];
    simplify_eq/=; done.
Qed.

Lemma get_district_calls_shape (g : option (Q → Q → reverse_result))
    (lat lon : Q) :
  (get_district_from_coords g lat lon).2
  = match g with Some _ => [Reverse lat lon] | None => [] end.
Proof. destruct g as [geo|]; [apply get_district_calls | done]. Qed.

Lemma handle_ping_unresolved (srv : server) (st : gmap string string)
    (u : string) (lat lon : Q) (tok : string) :
  unresolved srv lat lon →
  handle_ping srv (ping u lat lon tok) st
  = (resp_outside, st,
     match geolocator srv with Some _ => [Reverse lat lon] | None => [] end).
Proof.
  intros Hun. unfold unresolved in Hun. unfold handle_ping, ping.
  pose proof (get_district_calls_shape (geolocator srv) lat lon) as Hcalls.
  destruct (get_district_from_coords (geolocator srv) lat lon) as [cur calls].
  simpl in Hun, Hcalls. subst calls. by destruct Hun as [-> | ->].
Qed.

(** The result of the handler proper is one of the four of
    [handler_result]. *)
Lemma handle_ping_result (srv : server) (body : option ping_data)
    (st : gmap string string) :
  handler_result srv body st (handle_ping srv body st).
Proof.
  destruct body as [[[u|] [la|] [lo|] [tk|]]|];
    try (rewrite handle_ping_incomplete; [| simpl; tauto];
         apply HandlerInvalid; simpl; tauto).
  change (Some (PingData (Some u) (Some la) (Some lo) (Some tk)))
    with (ping u la lo tk).
  destruct (get_district_from_coords (geolocator srv) la lo).1
    as [[|a z]|] eqn:E.
  - assert (unresolved srv la lo) as Hun by by right.
    rewrite (handle_ping_unresolved srv st u la lo tk Hun).
    eapply HandlerOutside; [done..|]. destruct (geolocator srv); eauto.
  - assert (resolves srv la lo (String a z)) as Hres by done.
    rewrite (handle_ping_resolved srv st u la lo tk _ Hres).
    case_bool_decide as Hne.
    + eapply HandlerEntered; [reflexivity | done | congruence].
    + eapply HandlerSame; [reflexivity | done |].
      destruct (st !! u) as [z'|] eqn:E'; [|by destruct Hne].
      destruct (decide (String a z = z')) as [->|Hn]; [done|].
      destruct Hne. congruence.
  - assert (unresolved srv la lo) as Hun by by left.
    rewrite (handle_ping_unresolved srv st u la lo tk Hun).
    eapply HandlerOutside; [done..|]. destruct (geolocator srv); eauto.
Qed.

(** The check of line 139 lets a ping through, answers 503 or raises,
    whatever the body and the dictionary. *)
Lemma location_ping_mode (srv : server) :
  (∀ body st, location_ping srv body st = handle_ping srv body st)
  ∨ (∀ body st, location_ping srv body st = (resp_unavailable, st, []))
  ∨ (∀ body st, location_ping srv body st = (InternalServerError, st, [])).
Proof.
  unfold location_ping.
  destruct (py_all _); [by left | by right; left | by right; right].
Qed.

(** The result of [location_ping] is one of the three of [ping_result]. *)
Lemma location_ping_result (srv : server) (body : option ping_data)
    (st : gmap string string) :
  ping_result srv body st (location_ping srv body st).
Proof.
  destruct (location_ping_mode srv) as [H | [H | H]]; rewrite H.
  - apply PingHandled, handle_ping_result.
  - apply PingUnavailable.
  - apply PingRaised.
Qed.



(** X8. The calls of a ping always come in the order geocoder, dataset,
    model, dispatcher, each at most once and none without the ones before
    it: the list of calls is a prefix of such a sequence.  In particular
    nothing is dispatched without a prediction. *)
Theorem ping_calls_in_order (srv : server) (body : option ping_data)
    (st : gmap string string) :
  ∃ lat lon z rate m d,
    (location_ping srv body st).2
      `prefix_of` [Reverse lat lon; Loc z; Predict rate; Send m d].
Proof.
  destruct (location_ping_result srv body st)
    as [ | | res [ | u lat lon tok calls _ _ [-> | ->] | u lat lon tok z
                 | u lat lon tok z]]; simpl.
  - pad_calls. apply prefix_nil.
  - pad_calls. apply prefix_nil.
  - pad_calls. apply prefix_nil.
  - pad_calls. apply prefix_nil.
  - exists lat, lon. pad_calls. by eexists.
  - exists lat, lon. pad_calls. by eexists.
  - destruct (alert_cycle_calls srv z tok) as (rate & m & d & Hpre).
    exists lat, lon, z, rate, m, d. by apply prefix_cons.
Qed.

(** X9. No ping is served: the check of line 139 stops every one.  While
    the model or the dataset is not loaded the answer is 503; once both
    are loaded the check raises on the truth value of the dataset and the
    answer is 500, whatever the geocoder, the body and the dictionary.
    Either way the dictionary is left as it was and no call is made. *)
Theorem ping_always_stopped (srv : server) (body : option ping_data)
    (st : gmap string string) :
  location_ping srv body st
  = (match model_pipeline srv, district_data srv with
     | Some _, Some _ => InternalServerError
     | _, _ => resp_unavailable
     end, st, []).
Proof.
  unfold location_ping.
  by destruct (model_pipeline srv), (district_data srv).
Qed.

(** X10. A ping touches the entry of its own user only: the entry of any
    other user is what it was, and no entry is ever removed. *)
Theorem ping_frame (srv : server) (body : option ping_data)
    (st : gmap string string) (v : string) :
  let st' := (location_ping srv body st).1.2 in
  (body ≫= user_id ≠ Some v → st' !! v = st !! v)
  ∧ (is_Some (st !! v) → is_Some (st' !! v)).
Proof.
  destruct (location_ping_result srv body st)
    as [ | | res [ | u lat lon tok calls ? ? ? | u lat lon tok z ? ? ?
                 | u lat lon tok z Hbody ? ?]]; simpl; try done.
  subst body. simpl. split.
  - intros Hv. apply lookup_insert_ne. congruence.
  - intros Hsome. apply lookup_insert_is_Some'. by right.
Qed.

Lemma ping_frame_witness :
  (location_ping demo_server (ping "u1" 25 83 "t1")
     {[ "u1" := "A"; "u2" := "A" ]}).1.2 !! "u2"
  = ({[ "u1" := "A"; "u2" := "A" ]} : gmap string string) !! "u2".
Proof.
  apply (ping_frame demo_server (ping "u1" 25 83 "t1")
           {[ "u1" := "A"; "u2" := "A" ]} "u2").
  discriminate.
Defined.

(** ** [location_ping]: the alert *)


(** How the [try] block ends and what it dispatches. *)
Lemma alert_cycle_cases (srv : server) (z tok : string) :
  (∃ rate score, has_rate srv z rate ∧ scores srv rate score
     ∧ alert_cycle srv z tok
       = (Completed,
          ([Loc z; Predict rate]
             ++ send_push_notification (messaging_send srv) tok
                  (interpret_score score))%list))
  ∨ ((¬ ∃ rate score, has_rate srv z rate ∧ scores srv rate score)
     ∧ (alert_cycle srv z tok).1 ≠ Completed
     ∧ dispatches (alert_cycle srv z tok).2 = 0%nat).
Proof.
  unfold alert_cycle, has_rate, scores.
  destruct (district_data srv) as [districts|] eqn:Ed;
    [|right; split_and!; [|done..];
      by intros (? & ? & (? & ? & ? & _) & _)].
  destruct (districts !! z) as [row|] eqn:Ez;
    [|right; split_and!; [|done..];
      intros (? & ? & (? & ? & ? & ? & _) & _); congruence].
  destruct (row !! "crime_rate_per_capita") as [rate|] eqn:Er;
    [|right; split_and!; [|done..];
      intros (? & ? & (? & ? & ? & ? & ?) & _); congruence].
  destruct (model_pipeline srv) as [model|] eqn:Em;
    [|right; split_and!; [|done..];
      by intros (? & ? & _ & (? & ? & _))].
  destruct (model rate) as [score|] eqn:Es.
  - left. exists rate, score. split_and!; [by eexists _, _ | by eexists | done].
  - right. split_and!; [|done..].
    intros (r & sc & (? & ? & ? & ? & ?) & (? & ? & ?)). congruence.
Qed.

(** X11. The [try] block of a ping completes exactly when the dataset has
    a row for the district with a [crime_rate_per_capita] and the model
    returns a score for it; it then dispatches once, and in every other
    case (a [KeyError], any other exception) it dispatches nothing. *)
Theorem alert_cycle_outcome (srv : server) (z tok : string) :
  ((alert_cycle srv z tok).1 = Completed
   ↔ ∃ rate score, has_rate srv z rate ∧ scores srv rate score)
  ∧ dispatches (alert_cycle srv z tok).2
    = match (alert_cycle srv z tok).1 with
      | Completed => 1%nat
      | CaughtKeyError | CaughtException => 0%nat
      end.
Proof.
  destruct (alert_cycle_cases srv z tok)
    as [(rate & score & Hr & Hs & ->) | (Hno & Hne & ->)].
  - split; [|done]. split; [eauto | done].
  - split; [split; [done | by intros ?%Hno] |].
    by destruct (alert_cycle srv z tok).1.
Qed.



(** ** [location_ping]: what does not matter, repeating, commuting *)

(** X13. Whether [messaging.send] succeeds or raises changes neither the
    response nor the stored district: two servers that differ in the
    dispatcher only answer alike, store alike and make the same calls,
    the outcome of the delivery apart. *)
Theorem ping_ignores_delivery (srv srv' : server)
    (body : option ping_data) (st : gmap string string) :
  model_pipeline srv = model_pipeline srv' →
  district_data srv = district_data srv' →
  geolocator srv = geolocator srv' →
  (location_ping srv body st).1 = (location_ping srv' body st).1
  ∧ map undelivered (location_ping srv body st).2
    = map undelivered (location_ping srv' body st).2.
Proof.
  destruct srv as [m d g f], srv' as [m' d' g' f']. simpl.
  intros <- <- <-. unfold location_ping.
  cbn [model_pipeline district_data geolocator].
  destruct (py_all _); [|done..].
  unfold handle_ping, alert_cycle. simpl.
  repeat case_match; simplify_eq/=; try done.
  rewrite !map_app. done.
Qed.

Lemma ping_ignores_delivery_witness :
  (location_ping demo_server (ping "u1" 15 83 "t1") ∅).1
  = (location_ping demo_server_fcm_down (ping "u1" 15 83 "t1") ∅).1.
Proof.
  apply (ping_ignores_delivery demo_server demo_server_fcm_down);
    reflexivity.
Defined.

(** X14. Sending the same ping again at once changes nothing more: the
    second ping gets the response of the first, leaves the dictionary as
    the first left it, and repeats only the geocoder call of the first,
    so it dispatches nothing. *)
Theorem ping_repeat (srv : server) (body : option ping_data)
    (st : gmap string string) :
  let first := location_ping srv body st in
  location_ping srv body first.1.2
  = (first.1.1, first.1.2, List.filter is_reverse first.2).
Proof.
  cbv zeta.
  destruct (location_ping_mode srv) as [H | [H | H]]; rewrite !H;
    [|done..].
  destruct (handle_ping srv body st) as [[r st'] calls] eqn:E.
  pose proof (handle_ping_result srv body st) as Hres. rewrite E in Hres.
  inversion Hres as [ | u lat lon tok calls' Hbody Hun Hcalls
                    | u lat lon tok z
                    | u lat lon tok z Hbody Hz Hst]; subst;
    cbn [fst snd List.filter is_reverse];
    try (by rewrite E);
    try (by destruct Hcalls as [-> | ->]; rewrite E).
  rewrite (handle_ping_same srv _ u lat lon tok z Hz)
    by apply lookup_insert_eq.
  by rewrite alert_cycle_no_reverse.
Qed.

(** A ping depends on the dictionary through the entry of its user only,
    and writes nothing or that entry. *)
Lemma handle_ping_local (srv : server) (u : string) (lat lon : Q)
    (tok : string) (st1 st2 : gmap string string) :
  st1 !! u = st2 !! u →
  ∃ r calls (write : gmap string string → gmap string string),
    handle_ping srv (ping u lat lon tok) st1 = (r, write st1, calls)
    ∧ handle_ping srv (ping u lat lon tok) st2 = (r, write st2, calls)
    ∧ (write = id ∨ ∃ z, write = insert u z).
Proof.
  intros Heq.
  destruct (get_district_from_coords (geolocator srv) lat lon).1
    as [[|a z]|] eqn:E.
  - eexists resp_outside, _, id.
    rewrite !handle_ping_unresolved by by right. eauto.
  - assert (resolves srv lat lon (String a z)) as Hres by done.
    rewrite !(handle_ping_resolved srv _ u lat lon tok _ Hres), Heq.
    case_bool_decide.
    + eexists _, _, (insert u (String a z)). eauto.
    + eexists _, _, id. eauto.
  - eexists resp_outside, _, id.
    rewrite !handle_ping_unresolved by by left. eauto.
Qed.

Lemma location_ping_local (srv : server) (u : string) (lat lon : Q)
    (tok : string) (st1 st2 : gmap string string) :
  st1 !! u = st2 !! u →
  ∃ r calls (write : gmap string string → gmap string string),
    location_ping srv (ping u lat lon tok) st1 = (r, write st1, calls)
    ∧ location_ping srv (ping u lat lon tok) st2 = (r, write st2, calls)
    ∧ (write = id ∨ ∃ z, write = insert u z).
Proof.
  intros Heq.
  destruct (location_ping_mode srv) as [H | [H | H]]; rewrite !H.
  - by apply handle_ping_local.
  - exists resp_unavailable, [], id. eauto.
  - exists InternalServerError, [], id. eauto.
Qed.

Lemma location_ping_other (srv : server) (u v : string) (lat lon : Q)
    (tok : string) (st : gmap string string) :
  u ≠ v → (location_ping srv (ping u lat lon tok) st).1.2 !! v = st !! v.
Proof.
  intros Hne.
  destruct (location_ping_local srv u lat lon tok st st eq_refl)
    as (r & c & w & -> & _ & [-> | [z ->]]); [done|].
  by apply lookup_insert_ne.
Qed.

(** X15. Pings of different users commute: handled in either order, each
    gets the same response and makes the same calls, and the dictionary
    ends up the same. *)
Theorem pings_commute (srv1 srv2 : server) (u1 u2 : string)
    (lat1 lon1 lat2 lon2 : Q) (tok1 tok2 : string)
    (st : gmap string string) :
  u1 ≠ u2 →
  let p1 := ping u1 lat1 lon1 tok1 in
  let p2 := ping u2 lat2 lon2 tok2 in
  let a1 := location_ping srv1 p1 st in
  let a2 := location_ping srv2 p2 a1.1.2 in
  let b2 := location_ping srv2 p2 st in
  let b1 := location_ping srv1 p1 b2.1.2 in
  a1.1.1 = b1.1.1 ∧ a1.2 = b1.2 ∧ a2.1.1 = b2.1.1 ∧ a2.2 = b2.2
  ∧ a2.1.2 = b1.1.2.
Proof.
  intros Hne. cbv zeta.
  pose proof (location_ping_other srv1 u1 u2 lat1 lon1 tok1 st Hne) as H12.
  pose proof (location_ping_other srv2 u2 u1 lat2 lon2 tok2 st
                (not_eq_sym Hne)) as H21.
  destruct (location_ping_local srv1 u1 lat1 lon1 tok1 _ _ (eq_sym H21))
    as (r1 & c1 & w1 & E1 & E1' & Hw1).
  destruct (location_ping_local srv2 u2 lat2 lon2 tok2 _ _ (eq_sym H12))
    as (r2 & c2 & w2 & E2 & E2' & Hw2).
  rewrite E1', E2'. rewrite E1, E2. simpl. split_and!; try done.
  destruct Hw1 as [-> | [z1 ->]], Hw2 as [-> | [z2 ->]]; simpl; try done.
  by apply insert_insert_ne.
Qed.

Lemma pings_commute_witness :
  (location_ping demo_server (ping "u2" 25 83 "t2")
     (location_ping demo_server (ping "u1" 15 83 "t1") ∅).1.2).1.2
  = (location_ping demo_server (ping "u1" 15 83 "t1")
       (location_ping demo_server (ping "u2" 25 83 "t2") ∅).1.2).1.2.
Proof.
  apply (pings_commute demo_server demo_server "u1" "u2" 15 83 25 83 "t1" "t2" ∅).
  discriminate.
Defined.

(** ** [end_trip] *)



Lemma end_trip_entries (body : option end_trip_data)
    (st : gmap string string) (v : string) :
  (body ≫= trip_user_id ≠ Some v → (end_trip body st).2 !! v = st !! v)
  ∧ (is_Some ((end_trip body st).2 !! v) → is_Some (st !! v)).
Proof.
  unfold end_trip. destruct body as [[[u|]]|]; simpl; try done.
  case_match; simpl; [|done]. split.
  - intros Hv. apply lookup_delete_ne. congruence.
  - rewrite lookup_delete_is_Some. by intros [_ ?].
Qed.

(** X17. [end_trip] touches the entry of the user it names only: every
    other entry is what it was, and no entry is ever added. *)
Theorem end_trip_frame (body : option end_trip_data)
    (st : gmap string string) (v : string) :
  (body ≫= trip_user_id ≠ Some v → (end_trip body st).2 !! v = st !! v)
  ∧ (is_Some ((end_trip body st).2 !! v) → is_Some (st !! v)).
Proof. apply end_trip_entries. Qed.

Lemma end_trip_frame_witness :
  (end_trip (Some (EndTripData (Some "u1")))
     {[ "u1" := "A"; "u2" := "B" ]}).2 !! "u2"
  = ({[ "u1" := "A"; "u2" := "B" ]} : gmap string string) !! "u2".
Proof.
  apply (end_trip_frame (Some (EndTripData (Some "u1")))
           {[ "u1" := "A"; "u2" := "B" ]} "u2").
  discriminate.
Defined.



(** ** Both routes, any sequence of requests *)

Lemma handle_all_snoc (rqs : list request) (rq : request)
    (st : gmap string string) :
  handle_all (rqs ++ [rq])%list st = (handle rq (handle_all rqs st)).1.2.
Proof. unfold handle_all. by rewrite foldl_app. Qed.

(** X19. No stored district is ever the empty string: if that holds of
    the dictionary it still holds after any sequence of pings and
    [end_trip] requests; so it holds of every dictionary the server
    reaches from the empty one it starts with. *)
Theorem stored_districts_nonempty (rqs : list request)
    (st : gmap string string) :
  map_Forall (λ _ z, z ≠ "") st →
  map_Forall (λ _ z, z ≠ "") (handle_all rqs st).
Proof.
  intros Hst. induction rqs as [|rq rqs IH] using rev_ind; [done|].
  rewrite handle_all_snoc. set (st' := handle_all rqs st) in *.
  destruct rq as [srv body | body]; simpl.
  - destruct (location_ping_result srv body st')
      as [ | | res [ | | | u lat lon tok z _ (Hz & _) _]]; simpl; try done.
    by apply map_Forall_insert_2.
  - destruct (end_trip body st') as [r st''] eqn:E. simpl in *.
    intros v z Hv.
    unfold end_trip in E. destruct body as [[[u|]]|]; simplify_eq/=;
      try by eapply IH.
    case_match; simplify_eq/=; [|by eapply IH].
    apply lookup_delete_Some in Hv as [_ Hv]. by eapply IH.
Qed.

Lemma stored_districts_nonempty_witness :
  map_Forall (λ _ z, z ≠ "")
    (handle_all [LocationPing demo_server (ping "u1" 15 83 "t1");
                 EndTrip (Some (EndTripData (Some "u1")));
                 LocationPing demo_server (ping "" 25 83 "t1")] ∅).
Proof.
  apply (stored_districts_nonempty
           [LocationPing demo_server (ping "u1" 15 83 "t1");
            EndTrip (Some (EndTripData (Some "u1")));
            LocationPing demo_server (ping "" 25 83 "t1")] ∅).
  apply map_Forall_empty.
Defined.

(** X20. Entries come from pings only: a user has an entry after a
    sequence of requests only if the user had one before or one of the
    requests is a ping with that user id. *)
Theorem entries_come_from_pings (rqs : list request)
    (st : gmap string string) (u : string) :
  is_Some (handle_all rqs st !! u) →
  is_Some (st !! u)
  ∨ ∃ srv body, LocationPing srv body ∈ rqs ∧ body ≫= user_id = Some u.
Proof.
  induction rqs as [|rq rqs IH] using rev_ind; [by left|].
  rewrite handle_all_snoc. set (st' := handle_all rqs st) in *.
  intros Hsome.
  assert (is_Some (st' !! u)
          ∨ ∃ srv body, rq = LocationPing srv body
                        ∧ body ≫= user_id = Some u) as [Hold | Hnew].
  { destruct rq as [srv body | body]; simpl in Hsome.
    - destruct (decide (body ≫= user_id = Some u)) as [Hu | Hu];
        [right; eauto|]. left.
      destruct (location_ping_result srv body st')
        as [ | | res [ | | | u' lat lon tok z Hbody _ _]];
        simpl in Hsome; try done.
      subst body. simpl in Hu.
      rewrite lookup_insert_ne in Hsome by congruence. done.
    - left. pose proof (end_trip_entries body st' u) as [_ Hframe].
      destruct (end_trip body st'). by apply Hframe. }
  - destruct (IH Hold) as [? | (srv & body & Hin & Hu)]; [by left|].
    right. exists srv, body. split; [|done]. apply elem_of_app. by left.
  - destruct Hnew as (srv & body & -> & Hu). right. exists srv, body.
    split; [|done]. apply elem_of_app. right. by apply list_elem_of_singleton.
Qed.

Lemma entries_come_from_pings_witness :
  is_Some (({[ "u1" := "A" ]} : gmap string string) !! "u1")
  ∨ ∃ srv body,
      LocationPing srv body ∈ [EndTrip (Some (EndTripData (Some "u2")))]
      ∧ body ≫= user_id = Some "u1".
Proof.
  apply (entries_come_from_pings [EndTrip (Some (EndTripData (Some "u2")))]
           {[ "u1" := "A" ]} "u1").
  eexists. reflexivity.
Defined.

(** ** Initialisation *)

(** X21. The import fails, and no server comes up, exactly when loading
    the model or the dataset raises something other than
    [FileNotFoundError]; a failure of Firebase or of the geocoder never
    stops it.  The server that comes up has all three collaborators
    exactly when the model and the dataset were loaded and the geocoder
    was built. *)
Theorem startup_outcome (env : environment) :
  (startup env = None
   ↔ joblib_load env = OtherError ∨ read_csv env = OtherError)
  ∧ ∀ srv, startup env = Some srv →
      (available srv
       ↔ (∃ m, joblib_load env = Loaded m) ∧ (∃ d, read_csv env = Loaded d)
         ∧ is_Some (nominatim env)).
Proof.
  unfold startup, available.
  destruct (joblib_load env) as [m| |], (read_csv env) as [d| |];
    (split; [split; [try done; by eauto | by intros [? | ?]] |]);
    intros srv [= <-]; simpl;
    (split; [intros (Hm & Hd & Hg) | intros ((? & ?) & (? & ?) & ?)]);
    try done; try (by destruct Hm); try (by destruct Hd).
  split_and!; eauto.
Qed.

Lemma startup_outcome_witness :
  available (Server None (Some demo_districts) (Some demo_reverse)
               (λ message,
                  firebase_initialize demo_environment
                  && fcm demo_environment message))
  ↔ (∃ m, joblib_load demo_environment = Loaded m)
    ∧ (∃ d, read_csv demo_environment = Loaded d)
    ∧ is_Some (nominatim demo_environment).
Proof. apply (startup_outcome demo_environment). reflexivity. Defined.

(** X22. A server that came up without the model file or without the
    dataset answers every ping with 503; a server that came up with both
    answers every ping with 500, whether the geocoder was built or not.
    Neither ever touches the dictionary or makes a call. *)
Theorem startup_then_ping (env : environment) (srv : server)
    (body : option ping_data) (st : gmap string string) :
  startup env = Some srv →
  (joblib_load env = FileNotFound ∨ read_csv env = FileNotFound →
   location_ping srv body st = (resp_unavailable, st, []))
  ∧ ((∃ m, joblib_load env = Loaded m) → (∃ d, read_csv env = Loaded d) →
     location_ping srv body st = (InternalServerError, st, [])).
Proof.
  unfold startup. intros Hup. split.
  - intros Hmiss. apply location_ping_not_ready.
    destruct (joblib_load env) as [m| |], (read_csv env) as [d| |];
      simplify_eq/=; destruct Hmiss; simplify_eq; eauto.
  - intros [m Hm] [d Hd]. rewrite Hm, Hd in Hup. simplify_eq/=.
    by apply location_ping_raises.
Qed.

Lemma startup_then_ping_witness :
  location_ping
    (Server None (Some demo_districts) (Some demo_reverse)
       (λ message,
          firebase_initialize demo_environment
          && fcm demo_environment message))
    (ping "u1" 15 83 "t1") ∅
  = (resp_unavailable, ∅, []).
Proof.
  apply (startup_then_ping demo_environment);
    [reflexivity | left; reflexivity].
Defined.


